(** * Admissions prediction service: login, bearer-token check and prediction

    A shallow embedding of [src/service.py].  The service has two protected
    flows: [login] checks a credential table and issues a signed, time-bound
    token; [predict] runs [verify_token] on the [Authorization] header and only
    then calls the model runner.

    Conventions of the embedding:
    - Python [str] is [string]; [dict] is a [gmap] keyed by strings.
    - The wall clock ([datetime.utcnow()], and the clock read inside
      [jwt.decode]) is an explicit argument [now], in whole seconds since the
      epoch, the unit of the [exp] claim; a [timedelta] is a number of seconds.
    - A raised exception is the [Raise] branch of [outcome]; Python's [None] is
      [None].
    - The model runner is a function of the data frame; its invocations are
      recorded in a call log threaded through [predict].
    - The JWS signing primitive of the [jwt] package is an interface ([JWS]);
      the claim validation that [jwt.decode] performs on [exp] is written out. *)

From Stdlib Require Import ZArith String Ascii List Bool Lia.
From Stdlib Require Import Floats.SpecFloat.
From stdpp Require Import gmap strings list fin_maps countable.

Local Open Scope string_scope.
Local Open Scope Z_scope.

(** ** Python built-ins used by the service *)

Module Py.

(** [s.startswith(pre)] *)
Definition startswith (s pre : string) : bool := String.prefix pre s.

(** Scanner behind [str.split(sep)]: walks [s] left to right; [skip] counts the
    characters of a separator just matched that are still to be dropped.
    Returns the piece being read and the pieces after it. *)
Fixpoint split_from (sep : string) (skip : nat) (s : string) : string * list string :=
  match s with
  | EmptyString => (EmptyString, [])
  | String c s' =>
      match skip with
      | S k => split_from sep k s'
      | O =>
          if String.prefix sep s
          then let '(p, ps) := split_from sep (Nat.pred (String.length sep)) s' in
               (EmptyString, p :: ps)
          else let '(p, ps) := split_from sep O s' in
               (String c p, ps)
      end
  end.

(** [s.split(sep)] for a non-empty separator: the pieces between the
    non-overlapping occurrences of [sep], found left to right. *)
Definition split (s sep : string) : list string :=
  let '(p, ps) := split_from sep O s in p :: ps.

(** [sub in s]: [sub] occurs somewhere in [s]. *)
Fixpoint contains (s sub : string) : bool :=
  String.prefix sub s ||
  match s with
  | EmptyString => false
  | String _ s' => contains s' sub
  end.

(** [min(a, b)] and [max(a, b)] on floats, with Python's tie and NaN
    behaviour: the first argument is kept unless the second is strictly
    smaller (resp. larger). *)
Definition min (a b : spec_float) : spec_float := if SFltb b a then b else a.
Definition max (a b : spec_float) : spec_float := if SFltb a b then b else a.

End Py.

(** ** Values, exceptions and the runner's call log *)

(** JSON values that occur in token payloads. *)
Inductive jvalue : Type :=
  | JNull
  | JNum (n : Z)
  | JStr (s : string).

#[global] Instance jvalue_eq_dec : EqDecision jvalue.
Proof. solve_decision. Defined.

(** The subclasses of [jwt.PyJWTError] that [jwt.decode] raises. *)
Inductive PyJWTError : Type :=
  | DecodeError
  | InvalidSignatureError
  | InvalidAlgorithmError
  | ExpiredSignatureError.

#[global] Instance PyJWTError_eq_dec : EqDecision PyJWTError.
Proof. solve_decision. Defined.

Inductive exn : Type :=
  | BentoMLException (status_code : Z) (message : string)
  | ValidationError (fields : list string)
  | IndexError.

Inductive outcome (A : Type) : Type :=
  | Return (a : A)
  | Raise (e : exn).
Arguments Return {A} a.
Arguments Raise {A} e.

(** IEEE binary64 constants. *)
Definition f0 : spec_float := S754_zero false.
Definition f1 : spec_float := S754_finite false 4503599627370496 (-52).
Definition f5 : spec_float := S754_finite false 5629499534213120 (-50).
Definition f10 : spec_float := S754_finite false 5629499534213120 (-49).

Inductive cell : Type :=
  | IntCell (n : Z)
  | FloatCell (x : spec_float).

(** [pd.DataFrame([{...}])]: rows of named cells. *)
Definition DataFrame : Type := list (list (string * cell)).

(** Computations that may call the runner: the call log goes in and out. *)
Definition Run (A : Type) : Type := list DataFrame -> outcome A * list DataFrame.

Definition ret {A} (a : A) : Run A := fun log => (Return a, log).
Definition raise {A} (e : exn) : Run A := fun log => (Raise e, log).
Definition bind {A B} (m : Run A) (k : A -> Run B) : Run B :=
  fun log =>
    match m log with
    | (Return a, log') => k a log'
    | (Raise e, log') => (Raise e, log')
    end.

Notation "'let*' x ':=' m 'in' k" := (bind m (fun x => k))
  (at level 10, x name, m at level 100, k at level 200).

(** ** The [jwt] package *)

(** Compact JWS serialisation: [jws_sign payload key alg] is the signed token
    string, [jws_verify token key algs] parses a token and checks its
    signature under [key], accepting only the algorithms in [algs]. *)
Class JWS : Type := {
  jws_sign : gmap string jvalue -> string -> string -> string;
  jws_verify : string -> string -> list string -> PyJWTError + gmap string jvalue
}.

(** What the service relies on: a token verifies under the key and algorithm
    it was signed with and yields the signed payload, and a token is made of
    base64url segments joined by dots, so it holds no space. *)
Class JWSLaws (J : JWS) : Prop := {
  jws_verify_sign : forall payload key alg algs,
    alg ∈ algs -> jws_verify (jws_sign payload key alg) key algs = inr payload;
  jws_sign_no_space : forall payload key alg,
    Forall (fun c => c <> " "%char) (list_ascii_of_string (jws_sign payload key alg))
}.

Module jwt.
Section Jwt.
Context {J : JWS}.

(** [jwt.encode(payload, key, algorithm=alg)] *)
Definition encode (payload : gmap string jvalue) (key alg : string) : string :=
  jws_sign payload key alg.

(** Validation of the [exp] claim: absent is accepted, a number must lie
    strictly after the current time, anything else is not a timestamp. *)
Definition validate_exp (now : Z) (payload : gmap string jvalue) : option PyJWTError :=
  match payload !! "exp" with
  | None => None
  | Some (JNum exp) => if exp <=? now then Some ExpiredSignatureError else None
  | Some _ => Some DecodeError
  end.

(** [jwt.decode(token, key, algorithms=algs)], called at time [now]. *)
Definition decode (now : Z) (token key : string) (algs : list string)
  : PyJWTError + gmap string jvalue :=
  match jws_verify token key algs with
  | inl e => inl e
  | inr payload =>
      match validate_exp now payload with
      | Some e => inl e
      | None => inr payload
      end
  end.
End Jwt.
End jwt.

(** ** Configuration and request/response models *)

Definition SECRET_KEY : string := "your-secret-key-here".
Definition ALGORITHM : string := "HS256".
Definition ACCESS_TOKEN_EXPIRE_MINUTES : Z := 30.

(** [datetime.timedelta(minutes=m)], in seconds. *)
Definition timedelta_minutes (m : Z) : Z := 60 * m.

Record UserCredentials : Type := {
  username : string;
  password : string
}.

Definition users_db : gmap string UserCredentials :=
  <["admin" := {| username := "admin"; password := "admin123" |}]>
  (<["user" := {| username := "user"; password := "pass123" |}]> ∅).

Record Token : Type := {
  access_token : string;
  token_type : string
}.

Record PredictionFeatures : Type := {
  GRE_Score : Z;
  TOEFL_Score : Z;
  University_Rating : Z;
  SOP : spec_float;
  LOR : spec_float;
  CGPA : spec_float;
  Research : Z
}.

Record PredictionResponse : Type := {
  chance_of_admit : spec_float
}.

Record Context : Type := {
  http_headers : gmap string string
}.

(** The [Field(..., ge=lo, le=hi)] constraints of [PredictionFeatures]. *)
Definition int_field (name : string) (lo hi v : Z) : list string :=
  if (lo <=? v) && (v <=? hi) then [] else [name].

Definition float_field (name : string) (lo hi v : spec_float) : list string :=
  if SFleb lo v && SFleb v hi then [] else [name].

(** Names of the fields of a request body that violate their bounds, in
    declaration order; the body is accepted when there is none. *)
Definition field_errors (f : PredictionFeatures) : list string :=
  int_field "GRE_Score" 0 340 (GRE_Score f) ++
  int_field "TOEFL_Score" 0 120 (TOEFL_Score f) ++
  int_field "University_Rating" 1 5 (University_Rating f) ++
  float_field "SOP" f1 f5 (SOP f) ++
  float_field "LOR" f1 f5 (LOR f) ++
  float_field "CGPA" f0 f10 (CGPA f) ++
  int_field "Research" 0 1 (Research f).

(** ** The service *)

Section Service.
Context {J : JWS}.

(** [admissions_runner.predict.async_run(frame)], already indexed at [0]
    and converted by [float]. *)
Variable admissions_runner : DataFrame -> spec_float.

Definition async_run (input_data : DataFrame) : Run spec_float :=
  fun log => (Return (admissions_runner input_data), (log ++ [input_data])%list).

(** Truth value of an optional [timedelta]: [None] and the zero duration
    are both false. *)
Definition truthy (expires_delta : option Z) : bool :=
  match expires_delta with
  | None => false
  | Some d => negb (d =? 0)
  end.

Definition create_access_token (now : Z) (data : gmap string jvalue)
    (expires_delta : option Z) : string :=
  let to_encode := data in
  let expire :=
    if truthy expires_delta
    then now + default 0 expires_delta
    else now + timedelta_minutes ACCESS_TOKEN_EXPIRE_MINUTES in
  let to_encode := <["exp" := JNum expire]> to_encode in
  let encoded_jwt := jwt.encode to_encode SECRET_KEY ALGORITHM in
  encoded_jwt.

(** The subject of a token, [None] when it has none or does not decode. *)
Definition decode_token (now : Z) (token : string) : option jvalue :=
  match jwt.decode now token SECRET_KEY [ALGORITHM] with
  | inr payload =>
      let username := payload !! "sub" in
      match username with
      | None | Some JNull => None
      | Some username => Some username
      end
  | inl _ => None
  end.

(** [auth_header.split("Bearer ")[1]]: the string handed to [decode_token]. *)
Definition bearer_token (auth_header : string) : option string :=
  Py.split auth_header "Bearer " !! 1%nat.

(** [username in users_db]: only a string can equal one of the keys. *)
Definition in_users_db (username : jvalue) : bool :=
  match username with
  | JStr s => bool_decide (is_Some (users_db !! s))
  | _ => false
  end.

Definition verify_token (now : Z) (auth_header : option string)
  : outcome (option jvalue) :=
  match auth_header with
  | None | Some EmptyString => Return None
  | Some auth_header =>
      if negb (Py.startswith auth_header "Bearer ") then Return None
      else
        match bearer_token auth_header with
        | None => Raise IndexError
        | Some token =>
            let username := decode_token now token in
            match username with
            | None => Return None
            | Some username =>
                if negb (in_users_db username) then Return None
                else Return (Some username)
            end
        end
  end.

Definition login (now : Z) (user_credentials : UserCredentials) : outcome Token :=
  let user := users_db !! username user_credentials in
  match user with
  | None =>
      Raise (BentoMLException 401 "Incorrect username or password")
  | Some user =>
      if negb (String.eqb (password user_credentials) (password user))
      then Raise (BentoMLException 401 "Incorrect username or password")
      else
        let access_token_expires := timedelta_minutes ACCESS_TOKEN_EXPIRE_MINUTES in
        let access_token :=
          create_access_token now
            {["sub" := JStr (username user_credentials)]}
            (Some access_token_expires) in
        Return {| access_token := access_token; token_type := "bearer" |}
  end.

Definition input_frame (features : PredictionFeatures) : DataFrame :=
  [[("GRE Score", IntCell (GRE_Score features));
    ("TOEFL Score", IntCell (TOEFL_Score features));
    ("University Rating", IntCell (University_Rating features));
    ("SOP", FloatCell (SOP features));
    ("LOR", FloatCell (LOR features));
    ("CGPA", FloatCell (CGPA features));
    ("Research", IntCell (Research features))]].

(** The handler of the [predict] endpoint. *)
Definition predict (now : Z) (features : PredictionFeatures) (context : Context)
  : Run PredictionResponse :=
  let auth_header := http_headers context !! "Authorization" in
  match verify_token now auth_header with
  | Raise e => raise e
  | Return None =>
      raise (BentoMLException 401
               "Authentication failed. Please provide a valid JWT token.")
  | Return (Some username) =>
      let input_data := input_frame features in
      let* result := async_run input_data in
      let prediction := result in
      let prediction := Py.max f0 (Py.min f1 prediction) in
      ret {| chance_of_admit := prediction |}
  end.

(** Modelled from the spec: the validation that the input descriptor
    [JSON(pydantic_model=PredictionFeatures)] of [svc.api] runs on the body
    before the handler is entered, and the rejection it produces, a
    validation error naming the offending fields.  That code belongs to the
    framework and is not among the sources; the bounds checked are those
    that [PredictionFeatures] declares. *)
Definition predict_api (now : Z) (body : PredictionFeatures) (context : Context)
  : Run PredictionResponse :=
  match field_errors body with
  | [] => predict now body context
  | fields => raise (ValidationError fields)
  end.

(** The [health] endpoint ignores its argument. *)
Definition health {A} (_ : A) : gmap string string := {["status" := "healthy"]}.

End Service.

(** ** Why a request is turned away

    The failure kinds the specification names for authorization, and when each
    applies to a header at time [now], read off the branches of
    [verify_token] and [decode_token]. *)

Inductive AuthError : Type :=
  | MissingToken
  | MalformedHeader
  | InvalidToken
  | TokenExpired
  | UnknownSubject.

Inductive auth_fails {J : JWS} (now : Z) : option string -> AuthError -> Prop :=
  | fails_absent :
      auth_fails now None MissingToken
  | fails_empty :
      auth_fails now (Some EmptyString) MissingToken
  | fails_scheme h :
      h <> EmptyString ->
      Py.startswith h "Bearer " = false ->
      auth_fails now (Some h) MalformedHeader
  | fails_decode h token e :
      Py.startswith h "Bearer " = true ->
      bearer_token h = Some token ->
      jwt.decode now token SECRET_KEY [ALGORITHM] = inl e ->
      e <> ExpiredSignatureError ->
      auth_fails now (Some h) InvalidToken
  | fails_no_subject h token payload :
      Py.startswith h "Bearer " = true ->
      bearer_token h = Some token ->
      jwt.decode now token SECRET_KEY [ALGORITHM] = inr payload ->
      payload !! "sub" = None \/ payload !! "sub" = Some JNull ->
      auth_fails now (Some h) InvalidToken
  | fails_expired h token :
      Py.startswith h "Bearer " = true ->
      bearer_token h = Some token ->
      jwt.decode now token SECRET_KEY [ALGORITHM] = inl ExpiredSignatureError ->
      auth_fails now (Some h) TokenExpired
  | fails_unknown h token payload sub :
      Py.startswith h "Bearer " = true ->
      bearer_token h = Some token ->
      jwt.decode now token SECRET_KEY [ALGORITHM] = inr payload ->
      payload !! "sub" = Some sub ->
      sub <> JNull ->
      in_users_db sub = false ->
      auth_fails now (Some h) UnknownSubject.

(** The rejection every failed authorization is turned into. *)
Definition unauthorized : exn :=
  BentoMLException 401 "Authentication failed. Please provide a valid JWT token.".

(** A pair the credential table holds. *)
Definition valid_pair (u p : string) : Prop :=
  exists user, users_db !! u = Some user /\ password user = p.

(** A field of a request body that is outside its declared bounds. *)
Inductive violates (b : PredictionFeatures) : string -> Prop :=
  | bad_GRE : ~ (0 <= GRE_Score b <= 340) -> violates b "GRE_Score"
  | bad_TOEFL : ~ (0 <= TOEFL_Score b <= 120) -> violates b "TOEFL_Score"
  | bad_Rating : ~ (1 <= University_Rating b <= 5) -> violates b "University_Rating"
  | bad_SOP : SFleb f1 (SOP b) && SFleb (SOP b) f5 = false -> violates b "SOP"
  | bad_LOR : SFleb f1 (LOR b) && SFleb (LOR b) f5 = false -> violates b "LOR"
  | bad_CGPA : SFleb f0 (CGPA b) && SFleb (CGPA b) f10 = false -> violates b "CGPA"
  | bad_Research : ~ (0 <= Research b <= 1) -> violates b "Research".

(** ** A concrete codec

    A small instance of [JWS] on which the service can be run: the token is
    the binary numeral of the code of (payload, key, algorithm).  It is not a
    MAC; it only has the functional behaviour that [JWSLaws] asks for. *)

Module BitCodec.

Definition jvalue_to_sum (v : jvalue) : unit + (Z + string) :=
  match v with
  | JNull => inl tt
  | JNum n => inr (inl n)
  | JStr s => inr (inr s)
  end.

Definition jvalue_of_sum (x : unit + (Z + string)) : jvalue :=
  match x with
  | inl _ => JNull
  | inr (inl n) => JNum n
  | inr (inr s) => JStr s
  end.

#[global] Program Instance jvalue_countable : Countable jvalue :=
  inj_countable' jvalue_to_sum jvalue_of_sum _.
Next Obligation. by intros []. Qed.

Fixpoint bits_of_pos (p : positive) : string :=
  match p with
  | xH => EmptyString
  | xO q => String "0" (bits_of_pos q)
  | xI q => String "1" (bits_of_pos q)
  end.

Fixpoint pos_of_bits (s : string) : option positive :=
  match s with
  | EmptyString => Some xH
  | String c s' =>
      if Ascii.eqb c "0" then xO <$> pos_of_bits s'
      else if Ascii.eqb c "1" then xI <$> pos_of_bits s'
      else None
  end.

Definition sign (payload : gmap string jvalue) (key alg : string) : string :=
  bits_of_pos (encode (payload, key, alg)).

Definition verify (token key : string) (algs : list string)
  : PyJWTError + gmap string jvalue :=
  match pos_of_bits token ≫= decode with
  | None => inl DecodeError
  | Some (payload, key', alg) =>
      if negb (bool_decide (alg ∈ algs)) then inl InvalidAlgorithmError
      else if negb (String.eqb key key') then inl InvalidSignatureError
      else inr payload
  end.

#[global] Instance codec : JWS := {| jws_sign := sign; jws_verify := verify |}.

End BitCodec.

(** ** Concrete requests

    Inputs on which the service is run with the concrete codec. *)

(** A runner that answers [1.5] whatever the input, outside [0, 1]. *)
Definition runner_high (_ : DataFrame) : spec_float :=
  S754_finite false 6755399441055744 (-52).

(** The body of the end-to-end example: GRE 337, TOEFL 118, rating 4,
    SOP 4.5, LOR 4.5, CGPA 9.65, research 1. *)
Definition example_features : PredictionFeatures :=
  {| GRE_Score := 337; TOEFL_Score := 118; University_Rating := 4;
     SOP := S754_finite false 5066549580791808 (-50);
     LOR := S754_finite false 5066549580791808 (-50);
     CGPA := S754_finite false 5432467050515661 (-49);
     Research := 1 |}.

(** The same body with a GRE score of 400. *)
Definition invalid_features : PredictionFeatures :=
  {| GRE_Score := 400; TOEFL_Score := 118; University_Rating := 4;
     SOP := S754_finite false 5066549580791808 (-50);
     LOR := S754_finite false 5066549580791808 (-50);
     CGPA := S754_finite false 5432467050515661 (-49);
     Research := 1 |}.

(** A header carrying a token signed with the service key. *)
Definition header_of (payload : gmap string jvalue) : string :=
  "Bearer " +:+ BitCodec.sign payload SECRET_KEY ALGORITHM.

Definition with_header (h : string) : Context :=
  {| http_headers := {["Authorization" := h]} |}.


(** [admin], good until 5000. *)
Definition valid_header : string :=
  header_of (<["exp" := JNum 5000]> {["sub" := JStr "admin"]}).




(** ** The fixtures of the test suite ([tests/test_service.py]) *)

Record TestAdmissionsService : Type := {
  valid_token : string;
  expired_token : string
}.

(** [setUp]: a token for [admin] with the default lifetime, and one signed by
    hand whose [exp] lies an hour before the clock.  The clock is read twice,
    at [now] by [create_access_token] and at [now'] by [time.time()]. *)
Definition setUp {J : JWS} (now now' : Z) : TestAdmissionsService :=
  let valid_token := create_access_token now {["sub" := JStr "admin"]} None in
  let exp_time := now' - 3600 in
  let payload := <["exp" := JNum exp_time]> {["sub" := JStr "admin"]} in
  let expired_token := jwt.encode payload SECRET_KEY ALGORITHM in
  {| valid_token := valid_token; expired_token := expired_token |}.

(** [get_headers(with_token, expired)] *)
Definition get_headers (self : TestAdmissionsService) (with_token expired : bool)
  : gmap string string :=
  let headers := {["Content-Type" := "application/json"]} in
  if with_token then
    let token := if expired then expired_token self else valid_token self in
    <["Authorization" := "Bearer " +:+ token]> headers
  else headers.

(** * Properties *)

(** ** Splitting strings *)

Example split_one : Py.split "Bearer abc" "Bearer " = [""; "abc"].
Proof. reflexivity. Qed.
Example split_csv : Py.split "a,b,,c," "," = ["a"; "b"; ""; "c"; ""].
Proof. reflexivity. Qed.
Example split_none : Py.split "abc" "Bearer " = ["abc"].
Proof. reflexivity. Qed.
Example split_two : Py.split "Bearer abcBearer def" "Bearer " = [""; "abc"; "def"].
Proof. reflexivity. Qed.

(** ** The concrete codec satisfies the laws *)

Lemma pos_of_bits_of_pos p : BitCodec.pos_of_bits (BitCodec.bits_of_pos p) = Some p.
Proof. induction p as [q IH|q IH|]; simpl; rewrite ?IH; reflexivity. Qed.

Lemma bits_of_pos_no_space p :
  Forall (fun c => c <> " "%char) (list_ascii_of_string (BitCodec.bits_of_pos p)).
Proof. induction p; simpl; constructor; try assumption; discriminate. Qed.

#[global] Instance codec_laws : JWSLaws BitCodec.codec.
Proof.
  split.
  - intros payload key alg algs Hin. simpl. unfold BitCodec.verify, BitCodec.sign.
    rewrite pos_of_bits_of_pos. simpl. rewrite decode_encode.
    rewrite bool_decide_eq_true_2 by assumption. simpl.
    rewrite String.eqb_refl. reflexivity.
  - intros. apply bits_of_pos_no_space.
Qed.

Example login_roundtrip_example :
  match login 1000 {| username := "admin"; password := "admin123" |} with
  | Return t => verify_token 1000 (Some ("Bearer " +:+ access_token t))
  | Raise e => Raise e
  end = Return (Some (JStr "admin")).
Proof. vm_compute. reflexivity. Qed.

(** ** The token handed to the decoder *)

Lemma prefix_inv p s : String.prefix p s = true -> exists r, s = p +:+ r.
Proof.
  revert s. induction p as [|a p IH]; intros s Hp.
  - exists s. reflexivity.
  - destruct s as [|b s]; simpl in Hp; [discriminate|].
    destruct (ascii_dec a b) as [->|]; [|discriminate].
    destruct (IH _ Hp) as [r ->]. exists r. reflexivity.
Qed.

Lemma prefix_app p r : String.prefix p (p +:+ r) = true.
Proof.
  induction p as [|a p IH]; simpl.
  - destruct r; reflexivity.
  - destruct (ascii_dec a a); [assumption|congruence].
Qed.

Lemma split_from_absent sep t :
  Py.contains t sep = false -> Py.split_from sep O t = (t, []).
Proof.
  induction t as [|c t IH]; intros Hc; [reflexivity|].
  cbn [Py.contains] in Hc. apply orb_false_iff in Hc as [Hp Ht].
  cbn [Py.split_from]. rewrite Hp, (IH Ht). reflexivity.
Qed.

Lemma no_space_contains t :
  Forall (fun c => c <> " "%char) (list_ascii_of_string t) ->
  Py.contains t "Bearer " = false.
Proof.
  induction t as [|c t IH]; intros Hns; [reflexivity|].
  cbn [Py.contains]. apply orb_false_iff. split.
  - destruct (String.prefix "Bearer " (String c t)) eqn:Hp; [|reflexivity].
    apply prefix_inv in Hp as [r Hr]. rewrite Hr in Hns. simpl in Hns.
    do 6 (apply Forall_inv_tail in Hns). apply Forall_inv in Hns. congruence.
  - apply IH. simpl in Hns. exact (Forall_inv_tail Hns).
Qed.

(** After the leading scheme, the decoder receives the text up to the next
    occurrence of ["Bearer "]. *)
Lemma bearer_token_after t :
  bearer_token ("Bearer " +:+ t) = Some (fst (Py.split_from "Bearer " O t)).
Proof.
  unfold bearer_token, Py.split.
  change ("Bearer " +:+ t) with (String "B" ("earer " +:+ t)).
  cbn [Py.split_from].
  change (String "B" ("earer " +:+ t)) with ("Bearer " +:+ t).
  rewrite (prefix_app "Bearer " t).
  change (Py.split_from "Bearer " (Nat.pred (String.length "Bearer ")) ("earer " +:+ t))
    with (Py.split_from "Bearer " O t).
  destruct (Py.split_from "Bearer " O t) as [p ps]. reflexivity.
Qed.

Lemma bearer_token_absent t :
  Py.contains t "Bearer " = false -> bearer_token ("Bearer " +:+ t) = Some t.
Proof. intros H. rewrite bearer_token_after, split_from_absent by assumption. reflexivity. Qed.

Lemma bearer_token_no_space t :
  Forall (fun c => c <> " "%char) (list_ascii_of_string t) ->
  bearer_token ("Bearer " +:+ t) = Some t.
Proof. intros H. apply bearer_token_absent, no_space_contains, H. Qed.

(** The index [1] always exists behind the [startswith] guard. *)
Lemma bearer_token_defined h :
  Py.startswith h "Bearer " = true -> exists token, bearer_token h = Some token.
Proof.
  intros Hp. apply prefix_inv in Hp as [r ->]. rewrite bearer_token_after. eauto.
Qed.

(** ** Authorization *)

Section Authorize.
Context {J : JWS}.

Lemma startswith_nonempty h : Py.startswith h "Bearer " = true -> h <> EmptyString.
Proof. intros Hp ->. discriminate Hp. Qed.

(** Behind the scheme check, the verdict is that of the decoder followed by
    the lookup of the subject. *)
Lemma verify_token_bearer now h token :
  Py.startswith h "Bearer " = true ->
  bearer_token h = Some token ->
  verify_token now (Some h) =
    Return (match decode_token now token with
            | Some sub => if in_users_db sub then Some sub else None
            | None => None
            end).
Proof.
  intros Hp Htok. unfold verify_token.
  destruct h as [|c h]; [discriminate Hp|].
  rewrite Hp, Htok. cbn [negb].
  destruct (decode_token now token) as [sub|]; [|reflexivity].
  destruct (in_users_db sub); reflexivity.
Qed.


Lemma decode_token_error now token e :
  jwt.decode now token SECRET_KEY [ALGORITHM] = inl e -> decode_token now token = None.
Proof. intros H. unfold decode_token. rewrite H. reflexivity. Qed.

Lemma decode_token_payload now token payload :
  jwt.decode now token SECRET_KEY [ALGORITHM] = inr payload ->
  decode_token now token =
    match payload !! "sub" with
    | None | Some JNull => None
    | Some sub => Some sub
    end.
Proof. intros H. unfold decode_token. rewrite H. reflexivity. Qed.

(** Each failure kind makes [verify_token] answer [None]. *)
Lemma auth_fails_sound now h e : auth_fails now h e -> verify_token now h = Return None.
Proof.
  intros Hf. destruct Hf as
    [ | | h Hne Hp | h token e Hp Htok Hd _ | h token payload Hp Htok Hd Hsub
    | h token Hp Htok Hd | h token payload sub Hp Htok Hd Hsub Hnn Hdb ];
    try reflexivity.
  - unfold verify_token. rewrite Hp. destruct h; reflexivity.
  - rewrite (verify_token_bearer _ _ _ Hp Htok), (decode_token_error _ _ _ Hd).
    reflexivity.
  - rewrite (verify_token_bearer _ _ _ Hp Htok), (decode_token_payload _ _ _ Hd).
    destruct Hsub as [-> | ->]; reflexivity.
  - rewrite (verify_token_bearer _ _ _ Hp Htok), (decode_token_error _ _ _ Hd).
    reflexivity.
  - rewrite (verify_token_bearer _ _ _ Hp Htok), (decode_token_payload _ _ _ Hd), Hsub.
    destruct sub; [congruence | |]; rewrite Hdb; reflexivity.
Qed.

(** Conversely, [None] is only answered for one of the failure kinds. *)
Lemma auth_fails_complete now h :
  verify_token now h = Return None -> exists e, auth_fails now h e.
Proof.
  intros Hv. destruct h as [h|]; [|eexists; constructor].
  destruct h as [|c h]; [eexists; constructor|].
  set (hd := String c h) in *.
  destruct (Py.startswith hd "Bearer ") eqn:Hp.
  2:{ exists MalformedHeader. apply fails_scheme; [discriminate|assumption]. }
  destruct (bearer_token_defined hd Hp) as [token Htok].
  rewrite (verify_token_bearer now hd token Hp Htok) in Hv.
  destruct (jwt.decode now token SECRET_KEY [ALGORITHM]) as [e|payload] eqn:Hd.
  - destruct (decide (e = ExpiredSignatureError)) as [->|Hne].
    + exists TokenExpired. eapply fails_expired; eassumption.
    + exists InvalidToken. eapply fails_decode; eassumption.
  - rewrite (decode_token_payload _ _ _ Hd) in Hv.
    destruct (payload !! "sub") as [sub|] eqn:Hsub.
    2:{ exists InvalidToken. eapply fails_no_subject; eauto. }
    destruct (decide (sub = JNull)) as [->|Hnn].
    { exists InvalidToken. eapply fails_no_subject; eauto. }
    exists UnknownSubject. eapply fails_unknown; eauto.
    destruct sub; [congruence | |]; destruct (in_users_db _); congruence.
Qed.

End Authorize.

(** ** Issued tokens *)

Section Issued.
Context {J : JWS} {L : JWSLaws J}.

(** The instant written into the [exp] claim. *)
Lemma create_access_token_decode issue data delta now :
  let expire := if truthy delta then issue + default 0 delta
                else issue + timedelta_minutes ACCESS_TOKEN_EXPIRE_MINUTES in
  jwt.decode now (create_access_token issue data delta) SECRET_KEY [ALGORITHM] =
    if expire <=? now then inl ExpiredSignatureError
    else inr (<["exp" := JNum expire]> data).
Proof.
  intros expire. unfold create_access_token, jwt.decode, jwt.encode.
  fold expire. rewrite jws_verify_sign by (apply list_elem_of_here).
  unfold jwt.validate_exp. rewrite lookup_insert_eq.
  destruct (expire <=? now); reflexivity.
Qed.

Lemma create_access_token_header issue data delta :
  Py.startswith ("Bearer " +:+ create_access_token issue data delta) "Bearer " = true
  /\ bearer_token ("Bearer " +:+ create_access_token issue data delta) =
       Some (create_access_token issue data delta).
Proof.
  split; [apply prefix_app|].
  apply bearer_token_no_space. unfold create_access_token, jwt.encode.
  apply jws_sign_no_space.
Qed.

(** What [verify_token] answers on a freshly built header. *)
Lemma verify_token_issued issue data delta now u :
  data !! "sub" = Some (JStr u) ->
  is_Some (users_db !! u) ->
  let expire := if truthy delta then issue + default 0 delta
                else issue + timedelta_minutes ACCESS_TOKEN_EXPIRE_MINUTES in
  verify_token now (Some ("Bearer " +:+ create_access_token issue data delta)) =
    Return (if expire <=? now then None else Some (JStr u)).
Proof.
  intros Hsub Hu expire.
  destruct (create_access_token_header issue data delta) as [Hp Htok].
  rewrite (verify_token_bearer _ _ _ Hp Htok).
  pose proof (create_access_token_decode issue data delta now) as Hd.
  cbv zeta in Hd. fold expire in Hd.
  destruct (expire <=? now).
  - rewrite (decode_token_error _ _ _ Hd). reflexivity.
  - rewrite (decode_token_payload _ _ _ Hd).
    rewrite lookup_insert_ne by discriminate. rewrite Hsub.
    cbn [in_users_db]. rewrite bool_decide_eq_true_2 by assumption. reflexivity.
Qed.

End Issued.

(** ** Login *)

(** C1. For every pair held by the credential table, [login] returns a token,
    and [verify_token] on the header ["Bearer " + token], at any time before
    the token expires, answers exactly the username that logged in. *)
Theorem login_then_authorize {J : JWS} {L : JWSLaws J} (u p : string) (issue now : Z) :
  valid_pair u p ->
  now < issue + timedelta_minutes ACCESS_TOKEN_EXPIRE_MINUTES ->
  exists t,
    login issue {| username := u; password := p |} = Return t /\
    token_type t = "bearer" /\
    verify_token now (Some ("Bearer " +:+ access_token t)) = Return (Some (JStr u)).
Proof.
  intros (user & Hu & Hp) Hnow. unfold login. cbn [username password].
  rewrite Hu, Hp, String.eqb_refl. cbn [negb].
  eexists. split; [reflexivity|]. split; [reflexivity|]. cbn [access_token].
  rewrite (verify_token_issued issue _ _ now u).
  - cbn [truthy default]. 
    replace (_ <=? now) with false; [reflexivity|].
    symmetry. apply Z.leb_gt. 
    change (negb (timedelta_minutes ACCESS_TOKEN_EXPIRE_MINUTES =? 0)) with true.
    cbv iota. exact Hnow.
  - apply lookup_singleton_eq.
  - rewrite Hu. eauto.
Qed.

Lemma login_then_authorize_witness :
  valid_pair "admin" "admin123" /\
  exists t,
    login (J := BitCodec.codec) 1000 {| username := "admin"; password := "admin123" |}
      = Return t /\
    token_type t = "bearer" /\
    verify_token 2799 (Some ("Bearer " +:+ access_token t)) = Return (Some (JStr "admin")).
Proof.
  assert (Hv : valid_pair "admin" "admin123").
  { eexists. split; reflexivity. }
  split; [exact Hv|].
  apply (login_then_authorize (L := codec_laws) "admin" "admin123" 1000 2799 Hv).
  reflexivity.
Defined.



(** ** Lifetime of a token *)


(** C3. At the zero lifetime the token is not born expired: it is given the
    default thirty minutes, and [verify_token] accepts it at the instant of issue
    and for the 1800 seconds that follow. *)
Theorem zero_lifetime_token_accepted {J : JWS} {L : JWSLaws J} (issue now : Z) :
  issue + 0 <= now < issue + 1800 ->
  verify_token now
    (Some ("Bearer " +:+ create_access_token issue {["sub" := JStr "admin"]} (Some 0)))
  = Return (Some (JStr "admin")).
Proof.
  intros [_ Hnow].
  rewrite (verify_token_issued issue _ (Some 0) now "admin").
  - cbn [truthy default]. change (negb (0 =? 0)) with false. cbv iota.
    change (timedelta_minutes ACCESS_TOKEN_EXPIRE_MINUTES) with 1800.
    apply Z.leb_gt in Hnow. rewrite Hnow. reflexivity.
  - apply lookup_singleton_eq.
  - eexists. reflexivity.
Qed.

Lemma zero_lifetime_token_accepted_witness :
  1000 + 0 <= 1000 < 1000 + 1800 /\
  verify_token (J := BitCodec.codec) 1000
    (Some ("Bearer " +:+ create_access_token 1000 {["sub" := JStr "admin"]} (Some 0)))
  = Return (Some (JStr "admin")).
Proof.
  assert (H : 1000 + 0 <= 1000 < 1000 + 1800) by lia.
  split; [exact H|].
  exact (zero_lifetime_token_accepted (L := codec_laws) 1000 1000 H).
Defined.

(** C4. On a header that starts with the scheme and carries the scheme once
    more further on, the decoder is not handed everything after the first
    seven characters, only the text up to the second occurrence. *)
Theorem bearer_token_stops_at_next_scheme :
  Py.startswith "Bearer abcBearer def" "Bearer " = true /\
  bearer_token "Bearer abcBearer def" = Some "abc" /\
  bearer_token "Bearer abcBearer def" <> Some "abcBearer def".
Proof. repeat split. discriminate. Qed.

(** Seen from outside: a header made of a good token followed by a second
    scheme and arbitrary text is accepted as that token. *)
Example trailing_text_accepted :
  verify_token (J := BitCodec.codec) 1000 (Some (valid_header +:+ "Bearer junk"))
  = Return (Some (JStr "admin")).
Proof. vm_compute. reflexivity. Qed.

(** ** The prediction handler *)

Section Handler.
Context {J : JWS}.
Variable admissions_runner : DataFrame -> spec_float.

Lemma predict_unauthorized now features context log :
  verify_token now (http_headers context !! "Authorization") = Return None ->
  predict admissions_runner now features context log = (Raise unauthorized, log).
Proof. intros Hv. unfold predict. rewrite Hv. reflexivity. Qed.


End Handler.



(** At the endpoint the body is validated before the header is looked at;
    whichever of the two rejects, the runner is not invoked when authorization
    fails. *)
Lemma predict_api_fails_closed {J : JWS} (admissions_runner : DataFrame -> spec_float)
    now body context log cause :
  auth_fails now (http_headers context !! "Authorization") cause ->
  snd (predict_api admissions_runner now body context log) = log.
Proof.
  intros Hf. unfold predict_api. destruct (field_errors body); [|reflexivity].
  rewrite (predict_unauthorized admissions_runner _ _ _ _ (auth_fails_sound _ _ _ Hf)).
  reflexivity.
Qed.







(** ** Clamping the prediction *)










(** A valid body passes the validation and reaches the handler unchanged. *)
Lemma predict_api_valid {J : JWS} (admissions_runner : DataFrame -> spec_float)
    now body context :
  field_errors body = [] ->
  predict_api admissions_runner now body context =
    predict admissions_runner now body context.
Proof. intros H. unfold predict_api. rewrite H. reflexivity. Qed.

Example example_features_valid : field_errors example_features = [].
Proof. reflexivity. Qed.

(** ** Validation of the body *)

Lemma int_field_bad name lo hi v : ~ (lo <= v <= hi) -> int_field name lo hi v = [name].
Proof.
  intros H. unfold int_field.
  destruct (lo <=? v) eqn:Hlo; [|reflexivity].
  destruct (v <=? hi) eqn:Hhi; [|reflexivity].
  exfalso. apply H. split; [apply Z.leb_le, Hlo | apply Z.leb_le, Hhi].
Qed.

Lemma float_field_bad name lo hi v :
  SFleb lo v && SFleb v hi = false -> float_field name lo hi v = [name].
Proof. intros H. unfold float_field. rewrite H. reflexivity. Qed.

(** A violated bound puts the name of its field among the reported ones. *)
Lemma violates_field_errors b name : violates b name -> name ∈ field_errors b.
Proof.
  intros Hv. unfold field_errors.
  destruct Hv as [H|H|H|H|H|H|H];
    rewrite ?(int_field_bad _ _ _ _ H), ?(float_field_bad _ _ _ _ H);
    rewrite !elem_of_app; rewrite list_elem_of_singleton; tauto.
Qed.

(** C9. A body with a field outside its declared bounds is rejected with a
    validation error that names that field, and the call log of the runner is
    left as it was: the runner is not invoked. *)
Theorem invalid_body_rejected {J : JWS} (admissions_runner : DataFrame -> spec_float)
    (now : Z) (body : PredictionFeatures) (context : Context)
    (log : list DataFrame) (name : string) :
  violates body name ->
  exists fields,
    predict_api admissions_runner now body context log =
      (Raise (ValidationError fields), log) /\
    name ∈ fields.
Proof.
  intros Hv. apply violates_field_errors in Hv.
  exists (field_errors body). split; [|exact Hv].
  unfold predict_api. destruct (field_errors body) as [|f fs]; [|reflexivity].
  inversion Hv.
Qed.

Lemma invalid_body_rejected_witness :
  violates invalid_features "GRE_Score" /\
  exists fields,
    predict_api (J := BitCodec.codec) runner_high 1000 invalid_features
      (with_header valid_header) [] = (Raise (ValidationError fields), []) /\
    "GRE_Score" ∈ fields.
Proof.
  assert (Hv : violates invalid_features "GRE_Score").
  { apply bad_GRE. cbn [GRE_Score invalid_features]. lia. }
  split; [exact Hv|].
  exact (invalid_body_rejected (J := BitCodec.codec) runner_high 1000
           invalid_features (with_header valid_header) [] "GRE_Score" Hv).
Defined.

Example invalid_body_fields : field_errors invalid_features = ["GRE_Score"].
Proof. reflexivity. Qed.

(** * Further properties of the service *)

(** ** What [verify_token] can answer *)


Lemma verify_token_subject_inv {J : JWS} (now : Z) (auth_header : option string)
    (sub : jvalue) :
  verify_token now auth_header = Return (Some sub) ->
  exists h token payload s,
    auth_header = Some h /\
    Py.startswith h "Bearer " = true /\
    bearer_token h = Some token /\
    jwt.decode now token SECRET_KEY [ALGORITHM] = inr payload /\
    payload !! "sub" = Some (JStr s) /\
    sub = JStr s /\
    is_Some (users_db !! s).
Proof.
  intros Hv. destruct auth_header as [h|]; [|discriminate Hv].
  destruct (Py.startswith h "Bearer ") eqn:Hp.
  2:{ unfold verify_token in Hv. rewrite Hp in Hv. destruct h; discriminate Hv. }
  destruct (bearer_token_defined h Hp) as [token Htok].
  rewrite (verify_token_bearer now h token Hp Htok) in Hv.
  destruct (jwt.decode now token SECRET_KEY [ALGORITHM]) as [e|payload] eqn:Hd.
  { rewrite (decode_token_error _ _ _ Hd) in Hv. discriminate Hv. }
  rewrite (decode_token_payload _ _ _ Hd) in Hv.
  destruct (payload !! "sub") as [[|n|s]|] eqn:Hsub; try discriminate Hv.
  cbn [in_users_db] in Hv.
  destruct (bool_decide (is_Some (users_db !! s))) eqn:Hdb; [|discriminate Hv].
  exists h, token, payload, s. repeat split; try assumption; try reflexivity.
  - congruence.
  - apply bool_decide_eq_true in Hdb. exact Hdb.
Qed.

(** X2. A subject is only ever answered for a header that starts with the
    scheme and whose token decodes at that time (signature and expiry
    accepted) to a payload whose ["sub"] is that subject, a string that is a
    key of [users_db]. *)
Theorem verify_token_sound {J : JWS} (now : Z) (auth_header : option string)
    (sub : jvalue) :
  verify_token now auth_header = Return (Some sub) ->
  exists h token payload s,
    auth_header = Some h /\
    Py.startswith h "Bearer " = true /\
    bearer_token h = Some token /\
    jwt.decode now token SECRET_KEY [ALGORITHM] = inr payload /\
    payload !! "sub" = Some (JStr s) /\
    sub = JStr s /\
    is_Some (users_db !! s).
Proof. apply verify_token_subject_inv. Qed.

Lemma verify_token_sound_witness :
  verify_token (J := BitCodec.codec) 1000 (Some valid_header)
    = Return (Some (JStr "admin")) /\
  exists h token payload s,
    Some valid_header = Some h /\
    Py.startswith h "Bearer " = true /\
    bearer_token h = Some token /\
    jwt.decode (J := BitCodec.codec) 1000 token SECRET_KEY [ALGORITHM] = inr payload /\
    payload !! "sub" = Some (JStr s) /\
    JStr "admin" = JStr s /\
    is_Some (users_db !! s).
Proof.
  assert (Hv : verify_token (J := BitCodec.codec) 1000 (Some valid_header)
               = Return (Some (JStr "admin"))) by (vm_compute; reflexivity).
  split; [exact Hv|].
  exact (verify_token_sound (J := BitCodec.codec) 1000 (Some valid_header)
           (JStr "admin") Hv).
Defined.

(** X3. [verify_token] answers [None] exactly in the cases the code spells
    out: header absent or empty, header without the scheme, token that does
    not decode, payload without a subject, expired token, subject unknown to
    [users_db]. *)
Theorem verify_token_none_iff {J : JWS} (now : Z) (auth_header : option string) :
  verify_token now auth_header = Return None <->
  exists cause, auth_fails now auth_header cause.
Proof.
  split.
  - apply auth_fails_complete.
  - intros [cause Hf]. exact (auth_fails_sound _ _ _ Hf).
Qed.

(** ** Time *)





(** ** Signed payloads and issued tokens *)

Section Signed.
Context {J : JWS} {L : JWSLaws J}.

(** What [verify_token] answers on a header carrying any payload signed with
    the service key. *)
Lemma verify_token_signed now payload :
  verify_token now (Some ("Bearer " +:+ jwt.encode payload SECRET_KEY ALGORITHM)) =
    Return (match jwt.validate_exp now payload with
            | Some _ => None
            | None =>
                match payload !! "sub" with
                | Some (JStr u) =>
                    if bool_decide (is_Some (users_db !! u)) then Some (JStr u) else None
                | _ => None
                end
            end).
Proof.
  assert (Hp : Py.startswith ("Bearer " +:+ jwt.encode payload SECRET_KEY ALGORITHM)
                 "Bearer " = true) by apply prefix_app.
  assert (Htok : bearer_token ("Bearer " +:+ jwt.encode payload SECRET_KEY ALGORITHM)
                 = Some (jwt.encode payload SECRET_KEY ALGORITHM)).
  { apply bearer_token_no_space. unfold jwt.encode. apply jws_sign_no_space. }
  rewrite (verify_token_bearer _ _ _ Hp Htok).
  unfold decode_token, jwt.decode, jwt.encode.
  rewrite jws_verify_sign by (apply list_elem_of_here).
  destruct (jwt.validate_exp now payload); [reflexivity|].
  destruct (payload !! "sub") as [[|n|u]|]; reflexivity.
Qed.

End Signed.




(** X7. The token that [login] returns serves its user for exactly thirty
    minutes: on the header built from it, [verify_token] answers the
    username that logged in at every time before [issue + 1800], and [None]
    from then on; it never answers another subject. *)
Theorem login_token_verdict {J : JWS} {L : JWSLaws J} (issue now : Z)
    (creds : UserCredentials) (t : Token) :
  login issue creds = Return t ->
  verify_token now (Some ("Bearer " +:+ access_token t)) =
    Return (if issue + 1800 <=? now then None else Some (JStr (username creds))).
Proof.
  unfold login. destruct (users_db !! username creds) as [user|] eqn:Hu; [|discriminate].
  destruct (String.eqb (password creds) (password user)); [|discriminate].
  cbn [negb]. intros Ht. injection Ht as <-. cbn [access_token].
  rewrite (verify_token_issued issue _ _ now (username creds)).
  - reflexivity.
  - apply lookup_singleton_eq.
  - rewrite Hu. eauto.
Qed.

Lemma login_token_verdict_witness :
  exists t,
    login (J := BitCodec.codec) 1000 {| username := "user"; password := "pass123" |}
      = Return t /\
    verify_token (J := BitCodec.codec) 2800 (Some ("Bearer " +:+ access_token t)) =
      Return (if 1000 + 1800 <=? 2800 then None else Some (JStr "user")).
Proof.
  eexists. split; [reflexivity|].
  exact (login_token_verdict (L := codec_laws) 1000 2800
           {| username := "user"; password := "pass123" |} _ eq_refl).
Defined.

(** X8. [create_access_token] writes its own ["exp"] over whatever the caller
    put there and carries every other claim through unchanged: decoding the
    token before it expires gives back [data] with ["exp"] replaced. *)
Theorem issued_payload {J : JWS} {L : JWSLaws J} (issue now : Z)
    (data : gmap string jvalue) (delta : option Z) (payload : gmap string jvalue) :
  jwt.decode now (create_access_token issue data delta) SECRET_KEY [ALGORITHM]
    = inr payload ->
  (exists expire, payload !! "exp" = Some (JNum expire) /\ now < expire /\
     expire = if truthy delta then issue + default 0 delta else issue + 1800) /\
  forall k, k <> "exp" -> payload !! k = data !! k.
Proof.
  rewrite create_access_token_decode.
  change (timedelta_minutes ACCESS_TOKEN_EXPIRE_MINUTES) with 1800.
  set (expire := if truthy delta then issue + default 0 delta else issue + 1800).
  destruct (expire <=? now) eqn:He; [discriminate|].
  intros H. injection H as <-. split.
  - exists expire. rewrite lookup_insert_eq. apply Z.leb_gt in He. auto.
  - intros k Hk. apply lookup_insert_ne. congruence.
Qed.

Lemma issued_payload_witness :
  jwt.decode (J := BitCodec.codec) 1000
    (create_access_token 1000 (<["exp" := JNum 99999]> {["sub" := JStr "admin"]}) None)
    SECRET_KEY [ALGORITHM]
    = inr (<["exp" := JNum 2800]> {["sub" := JStr "admin"]}) /\
  (<["exp" := JNum 2800]> {["sub" := JStr "admin"]} : gmap string jvalue) !! "sub"
    = (<["exp" := JNum 99999]> {["sub" := JStr "admin"]} : gmap string jvalue) !! "sub".
Proof.
  assert (Hd : jwt.decode (J := BitCodec.codec) 1000
                 (create_access_token 1000
                    (<["exp" := JNum 99999]> {["sub" := JStr "admin"]}) None)
                 SECRET_KEY [ALGORITHM]
               = inr (<["exp" := JNum 2800]> {["sub" := JStr "admin"]})).
  { vm_compute. reflexivity. }
  split; [exact Hd|].
  apply (proj2 (issued_payload (L := codec_laws) 1000 1000 _ None _ Hd)).
  discriminate.
Defined.

(** ** What a caller can learn from a refusal *)

(** X9. A refused login does not tell an unknown username from a wrong
    password: any two logins that return no token raise the same exception,
    whenever they are made. *)
Theorem login_failure_uniform {J : JWS} (now1 now2 : Z) (creds1 creds2 : UserCredentials) :
  (forall t, login now1 creds1 <> Return t) ->
  (forall t, login now2 creds2 <> Return t) ->
  login now1 creds1 = login now2 creds2.
Proof.
  assert (H : forall now creds, (forall t, login now creds <> Return t) ->
            login now creds =
              Raise (BentoMLException 401 "Incorrect username or password")).
  { intros now creds Hno. unfold login in *.
    destruct (users_db !! username creds) as [user|]; [|reflexivity].
    destruct (String.eqb (password creds) (password user)); [|reflexivity].
    cbn [negb] in *. exfalso. eapply Hno. reflexivity. }
  intros H1 H2. rewrite (H _ _ H1), (H _ _ H2). reflexivity.
Qed.

Lemma login_failure_uniform_witness :
  login (J := BitCodec.codec) 1000 {| username := "nobody"; password := "admin123" |}
  = login (J := BitCodec.codec) 2000 {| username := "admin"; password := "Admin123" |}.
Proof.
  apply (login_failure_uniform (J := BitCodec.codec) 1000 2000).
  - intros t. vm_compute. discriminate.
  - intros t. vm_compute. discriminate.
Defined.

(** ** Everything [predict] can do *)




(** ** What reaches the decoder *)

(** X12. When the text after the leading scheme holds no further
    ["Bearer "], the decoder is handed exactly that text. *)
Theorem bearer_token_whole_rest (t : string) :
  Py.contains t "Bearer " = false ->
  Py.startswith ("Bearer " +:+ t) "Bearer " = true /\
  bearer_token ("Bearer " +:+ t) = Some t.
Proof.
  intros H. split; [apply prefix_app|].
  rewrite bearer_token_after, split_from_absent by assumption. reflexivity.
Qed.

Lemma bearer_token_whole_rest_witness :
  Py.contains "abc.def.ghi" "Bearer " = false /\
  bearer_token "Bearer abc.def.ghi" = Some "abc.def.ghi".
Proof.
  assert (H : Py.contains "abc.def.ghi" "Bearer " = false) by reflexivity.
  split; [exact H|].
  exact (proj2 (bearer_token_whole_rest "abc.def.ghi" H)).
Defined.

Ltac next_char H t :=
  destruct t as [|? t]; cbn [String.append] in H;
  [discriminate H | injection H as ? H; subst].

(** In front of a text without spaces, the scheme cannot start early. *)
Lemma no_early_scheme c t r :
  Forall (fun c => c <> " "%char) (list_ascii_of_string (String c t)) ->
  String.prefix "Bearer " (String c (t +:+ "Bearer " +:+ r)) = false.
Proof.
  intros Hns.
  destruct (String.prefix "Bearer " (String c (t +:+ "Bearer " +:+ r))) eqn:Hp;
    [|reflexivity].
  exfalso. apply prefix_inv in Hp as [x H].
  cbn [String.append] in H. injection H as ? H; subst.
  do 5 (next_char H t).
  destruct t as [|c6 t]; cbn [String.append] in H; [discriminate H|].
  injection H as ? H; subst.
  cbn [list_ascii_of_string] in Hns.
  do 6 (apply Forall_inv_tail in Hns). apply Forall_inv in Hns. congruence.
Qed.

Lemma split_from_before_scheme t r :
  Forall (fun c => c <> " "%char) (list_ascii_of_string t) ->
  fst (Py.split_from "Bearer " O (t +:+ "Bearer " +:+ r)) = t.
Proof.
  induction t as [|c t IH]; intros Hns.
  - change (EmptyString +:+ "Bearer " +:+ r) with (String "B" ("earer " +:+ r)).
    cbn [Py.split_from].
    change (String "B" ("earer " +:+ r)) with ("Bearer " +:+ r).
    rewrite (prefix_app "Bearer " r).
    destruct (Py.split_from _ _ _). reflexivity.
  - change (String c t +:+ "Bearer " +:+ r) with (String c (t +:+ "Bearer " +:+ r)).
    cbn [Py.split_from]. rewrite (no_early_scheme c t r Hns).
    specialize (IH (Forall_inv_tail Hns)).
    destruct (Py.split_from "Bearer " 0 (t +:+ "Bearer " +:+ r)) as [p ps].
    cbn [fst] in *. congruence.
Qed.

(** X13. Whatever follows a second ["Bearer "] is ignored: a header made of
    the scheme, a text without spaces, the scheme again and anything at all
    gets the answer of the header that stops after the text. *)
Theorem text_after_second_scheme_ignored {J : JWS} (now : Z) (t r : string) :
  Forall (fun c => c <> " "%char) (list_ascii_of_string t) ->
  verify_token now (Some ("Bearer " +:+ t +:+ "Bearer " +:+ r)) =
    verify_token now (Some ("Bearer " +:+ t)).
Proof.
  intros Hns.
  rewrite (verify_token_bearer now ("Bearer " +:+ t +:+ "Bearer " +:+ r) t).
  - rewrite (verify_token_bearer now ("Bearer " +:+ t) t); [reflexivity| |].
    + apply prefix_app.
    + apply bearer_token_no_space, Hns.
  - apply (prefix_app "Bearer " (t +:+ "Bearer " +:+ r)).
  - rewrite (bearer_token_after (t +:+ "Bearer " +:+ r)).
    rewrite split_from_before_scheme by assumption. reflexivity.
Qed.

Lemma text_after_second_scheme_ignored_witness :
  Forall (fun c => c <> " "%char) (list_ascii_of_string "abc") /\
  verify_token (J := BitCodec.codec) 1000 (Some ("Bearer " +:+ "abc" +:+ "Bearer " +:+ "x y")) =
    verify_token (J := BitCodec.codec) 1000 (Some ("Bearer " +:+ "abc")).
Proof.
  assert (H : Forall (fun c => c <> " "%char) (list_ascii_of_string "abc")).
  { repeat constructor; discriminate. }
  split; [exact H|].
  exact (text_after_second_scheme_ignored (J := BitCodec.codec) 1000 "abc" "x y" H).
Defined.

(** ** The bounds of the body *)





(** ** The test fixtures against the service *)

(** X15. The headers that the test suite builds do what their names say.
    With the fixtures made at clock readings [now] and [now'], the header
    with the valid token is answered [admin] at every time before
    [now + 1800]; the header with the expired token is answered [None] at
    every time from [now' - 3600] on, so at any time after [setUp]; and the
    headers without a token carry no [Authorization] and are answered
    [None]. *)
Theorem fixture_headers {J : JWS} {L : JWSLaws J} (now now' t : Z) :
  let self := setUp now now' in
  (t < now + 1800 ->
     verify_token t (get_headers self true false !! "Authorization")
       = Return (Some (JStr "admin"))) /\
  (now' - 3600 <= t ->
     verify_token t (get_headers self true true !! "Authorization") = Return None) /\
  (forall expired,
     get_headers self false expired !! "Authorization" = None /\
     verify_token t (get_headers self false expired !! "Authorization") = Return None).
Proof.
  intros self. split; [|split].
  - intros Ht. unfold get_headers. rewrite lookup_insert_eq.
    unfold self, setUp. cbn [valid_token].
    rewrite (verify_token_issued now _ None t "admin").
    + cbn [truthy]. change (timedelta_minutes ACCESS_TOKEN_EXPIRE_MINUTES) with 1800.
      apply Z.leb_gt in Ht. rewrite Ht. reflexivity.
    + apply lookup_singleton_eq.
    + eexists. reflexivity.
  - intros Ht. unfold get_headers. rewrite lookup_insert_eq.
    unfold self, setUp. cbn [expired_token].
    rewrite verify_token_signed. unfold jwt.validate_exp.
    rewrite lookup_insert_eq. apply Z.leb_le in Ht. rewrite Ht. reflexivity.
  - intros expired. unfold get_headers.
    rewrite lookup_singleton_ne by discriminate. split; reflexivity.
Qed.

Lemma fixture_headers_witness :
  verify_token (J := BitCodec.codec) 1100
    (get_headers (setUp (J := BitCodec.codec) 1000 1001) true false !! "Authorization")
    = Return (Some (JStr "admin")) /\
  verify_token (J := BitCodec.codec) 1100
    (get_headers (setUp (J := BitCodec.codec) 1000 1001) true true !! "Authorization")
    = Return None.
Proof.
  destruct (fixture_headers (L := codec_laws) 1000 1001 1100) as (Hv & He & _).
  split; [apply Hv | apply He]; lia.
Defined.
